(** * gpt.py: the bootstrap layer of the command-line chat client

    A shallow embedding of [src/gpt.py]: the uncaught-exception hook,
    [init_assistant], [parse_args] and [main], followed by the properties
    the specification states about them.

    Python objects that are shared by reference (the [AssistantConfig]
    instances stored in the two registries) live in an explicit heap, so
    that the attribute assignments of [init_assistant] are visible through
    every alias.  Calls into collaborators ([logging], [print], [openai],
    [ChatSession], [argparse]'s error exit) are recorded in a trace; how
    the calls that can fail end ([logging.basicConfig], the constructor
    and the loop of the session) is decided by an environment that the
    process state carries. *)

From Stdlib Require Import PrimFloat.
From stdpp Require Import gmap strings list fin_maps.

Open Scope string_scope.

(** ** Data model *)

(** Object references. *)
Abbreviation loc := positive.

(** Modelled from the spec: [gptcli.assistant.AssistantConfig] is not part
    of the source at hand.  The spec gives it a model identifier, a
    nullable temperature, a nullable [top_p] and "other assistant-shaping
    fields"; [messages] stands for the latter. *)
Module AssistantConfig.
Record t := mk {
  model : string;
  temperature : option float;
  top_p : option float;
  messages : list (string * string)
}.

(** Attribute assignment [cfg.temperature = v] and its siblings. *)
Definition set_temperature (v : float) (c : t) : t :=
  mk (model c) (Some v) (top_p c) (messages c).
Definition set_model (v : string) (c : t) : t :=
  mk v (temperature c) (top_p c) (messages c).
Definition set_top_p (v : float) (c : t) : t :=
  mk (model c) (temperature c) (Some v) (messages c).
End AssistantConfig.

(** Modelled from the spec: [gptcli.config.GptCliConfig] is not part of
    the source at hand.  The custom-assistant mapping holds references to
    [AssistantConfig] objects; the source reads the five other fields in
    [parse_args] and [main]. *)
Module GptCliConfig.
Record t := mk {
  default_assistant : string;
  markdown : bool;
  log_file : option string;
  log_level : string;
  api_key : option string;
  assistants : gmap string loc
}.
End GptCliConfig.

(** The command line, [sys.argv[1:]], as [argparse] groups its tokens: the
    optional positional, whether [--no_markdown] occurs, and the raw value
    token of every valued option that occurs (the last one when an option
    is repeated).  [unrecognized] collects the tokens the parser cannot
    attach to any declared argument.  A command line with [-h] or
    [--help], which the parser answers by printing its help and leaving
    with exit status 0, is not of this type: those two tokens belong to
    the parser's own help action and are never among [unrecognized]. *)
Module CommandLine.
Record t := mk {
  assistant_name : option string;
  no_markdown : bool;
  model : option string;
  temperature : option string;
  top_p : option string;
  log_file : option string;
  log_level : option string;
  unrecognized : list string
}.
End CommandLine.

(** The namespace returned by [parser.parse_args()]. *)
Module Namespace.
Record t := mk {
  assistant_name : string;
  markdown : bool;
  model : option string;
  temperature : option float;
  top_p : option float;
  log_file : option string;
  log_level : string
}.
End Namespace.

(** Modelled from the spec: [gptcli.assistant.Assistant] is not part of
    the source at hand; it owns the configuration object it was built
    from (line 108 reads [assistant.config]).  As the spec has it,
    constructing one does nothing but create the object. *)
Module Assistant.
Record t := mk { config : loc }.
End Assistant.

(** Modelled from the spec: [gptcli.cli.ChatSession] is an opaque session
    object built from an assistant and the markdown flag. *)
Module ChatSession.
Record t := mk { assistant : Assistant.t; markdown : bool }.
End ChatSession.

(** The triple handed to [sys.excepthook]. *)
Record exc_info := {
  exc_type : string;
  exc_value : string;
  exc_traceback : list string
}.

(** What [sys.excepthook] can hold: a hook of the platform, or the
    function defined at line 16. *)
Inductive excepthook :=
  | platform_hook (name : string)
  | exception_handler_hook.

(** Numeric severities of the [logging] module. *)
Definition logging_INFO : Z := 20.
Definition logging_ERROR : Z := 40.

(** Calls into collaborators, in the order they happen. *)
Inductive event :=
  | logging_basicConfig (filename level format : string)
  | logging_setLevel (logger : string) (level : Z)
  | logging_record (levelno : Z) (msg : string)
      (exc : option exc_info) (arg : option loc)
  | print (line : string)
  | argparse_usage_error
  | Assistant_init (cfg : loc)
  | openai_set_api_key (key : option string)
  | ChatSession_init (assistant : Assistant.t) (markdown : bool)
  | ChatSession_loop (session : ChatSession.t)
  | hook_call (hook : excepthook) (e : exc_info).

(** A computation either returns or leaves in one of three ways:
    through [sys.exit], by an exception deriving from [Exception]
    (whose triple [Raised] carries), or by [KeyboardInterrupt], which
    like [SystemExit] does not derive from [Exception] and which the
    interpreter treats apart at the end of the process.  An interrupt
    comes from the session, whose loop is where the process waits. *)
Inductive abort :=
  | SystemExit (status : Z)
  | Raised (e : exc_info)
  | KeyboardInterrupt (traceback : list string).

(** What lies outside [gpt.py] and decides how the calls of [main] into
    [logging] and into the session end. *)
Module Environment.
Record t := mk {
  (** the root logger already has a handler when [main] starts:
      [logging.basicConfig] then does nothing *)
  root_has_handlers : bool;
  (** opening a log file for appending: [Some msg] is the [OSError]
      with that message *)
  open_log_file : string -> option string;
  (** how [ChatSession(assistant=..., markdown=...)] ends: [None] when
      it returns the session *)
  ChatSession_fails : Assistant.t -> bool -> option abort;
  (** how [session.loop()] ends: [None] when it returns *)
  loop_ends : ChatSession.t -> option abort
}.
End Environment.

(** What the file [~/.gptrc] is to [main]: absent, or present, in which
    case [read_yaml_config] (not part of the source at hand) either
    raises or returns a configuration whose custom assistants are already
    allocated on the heap. *)
Inductive gptrc_file :=
  | no_file
  | readable (cfg : GptCliConfig.t)
  | malformed (e : exc_info).

(** The process state. *)
Record world := mk_world {
  environment : Environment.t;
  sys_argv : CommandLine.t;
  gptrc : gptrc_file;
  heap : gmap loc AssistantConfig.t;
  sys_excepthook : excepthook;
  default_exception_handler : excepthook;
  trace : list event
}.

(** ** A state and abort monad *)

Definition M (A : Type) : Type := world -> (abort + A) * world.

Definition ret {A} (a : A) : M A := fun w => (inr a, w).

Definition bind {A B} (m : M A) (k : A -> M B) : M B :=
  fun w =>
    match m w with
    | (inl x, w') => (inl x, w')
    | (inr a, w') => k a w'
    end.

Declare Scope py_scope.
Delimit Scope py_scope with py.
Notation "x <- m ;; k" := (bind m (fun x => k))
  (at level 100, m at next level, right associativity) : py_scope.
Notation "m ;; k" := (bind m (fun _ => k))
  (at level 100, right associativity) : py_scope.
Open Scope py_scope.

Definition raise {A} (e : exc_info) : M A := fun w => (inl (Raised e), w).
Definition sys_exit {A} (status : Z) : M A := fun w => (inl (SystemExit status), w).
Definition leave {A} (a : abort) : M A := fun w => (inl a, w).
Definition get : M world := fun w => (inr w, w).

Definition emit (e : event) : M unit :=
  fun w => (inr tt,
    mk_world (environment w) (sys_argv w) (gptrc w) (heap w) (sys_excepthook w)
      (default_exception_handler w) (trace w ++ [e])).

Definition set_heap (h : gmap loc AssistantConfig.t) : M unit :=
  fun w => (inr tt,
    mk_world (environment w) (sys_argv w) (gptrc w) h (sys_excepthook w)
      (default_exception_handler w) (trace w)).

(** [obj.attr = v] on the object at [l]. *)
Definition setattr (l : loc) (f : AssistantConfig.t -> AssistantConfig.t) : M unit :=
  fun w => set_heap (alter f l (heap w)) w.

(** ** Dictionaries *)

(** [d.update(other)]: every item of [other] is written into [d]. *)
Definition dict_update {V} (d other : gmap string V) : gmap string V :=
  map_fold (fun k v acc => <[k:=v]> acc) d other.

(** The display [{**a, **b}]: a new dictionary, filled from [a], then
    from [b]. *)
Definition dict_unpack {V} (a b : gmap string V) : gmap string V :=
  dict_update (dict_update ∅ a) b.

Definition dict_keys {V} (d : gmap string V) : list string :=
  (map_to_list d).*1.

Definition KeyError (key : string) (frames : list string) : exc_info :=
  {| exc_type := "KeyError"; exc_value := key; exc_traceback := frames |}.

Definition ValueError (value : string) (frames : list string) : exc_info :=
  {| exc_type := "ValueError"; exc_value := value; exc_traceback := frames |}.

(** An [OSError], or one of its subclasses. *)
Definition OSError (value : string) (frames : list string) : exc_info :=
  {| exc_type := "OSError"; exc_value := value; exc_traceback := frames |}.

(** [d[key]] *)
Definition dict_getitem {V} (d : gmap string V) (key : string)
    (frames : list string) : M V :=
  match d !! key with
  | Some v => ret v
  | None => raise (KeyError key frames)
  end.

(** ** The program *)

Section gpt.

(** Modelled from the spec: [gptcli.assistant.DEFAULT_ASSISTANTS], the
    built-in registry, is not part of the source at hand.  It maps names
    to [AssistantConfig] objects. *)
Variable DEFAULT_ASSISTANTS : gmap string loc.

(** Python's [float] applied to a command-line token; [None] stands for
    the [ValueError] that [argparse] turns into a usage error. *)
Variable python_float : string -> option float.

(** Lines 16-19. *)
Definition exception_handler (type value : string) (traceback : list string)
    : M unit :=
  let e := {| exc_type := type; exc_value := value; exc_traceback := traceback |} in
  emit (logging_record logging_ERROR "Uncaught exception" (Some e) None) ;;
  emit (print "An uncaught exception occurred. Please report this issue on GitHub.") ;;
  w <- get ;;
  emit (hook_call (default_exception_handler w) e).

(** Line 13: [default_exception_handler = sys.excepthook]. *)
Definition save_excepthook : M unit :=
  fun w => (inr tt,
    mk_world (environment w) (sys_argv w) (gptrc w) (heap w) (sys_excepthook w)
      (sys_excepthook w) (trace w)).

(** Line 22: [sys.excepthook = exception_handler]. *)
Definition install_excepthook : M unit :=
  fun w => (inr tt,
    mk_world (environment w) (sys_argv w) (gptrc w) (heap w) exception_handler_hook
      (default_exception_handler w) (trace w)).

(** Lines 25-34. *)
Definition init_assistant (args : Namespace.t)
    (custom_assistants : gmap string loc) : M Assistant.t :=
  let all_assistants := dict_unpack DEFAULT_ASSISTANTS custom_assistants in
  assistant_config <-
    dict_getitem all_assistants (Namespace.assistant_name args)
      ["main"; "init_assistant"] ;;
  match Namespace.temperature args with
  | Some v => setattr assistant_config (AssistantConfig.set_temperature v)
  | None => ret tt
  end ;;
  match Namespace.model args with
  | Some v => setattr assistant_config (AssistantConfig.set_model v)
  | None => ret tt
  end ;;
  match Namespace.top_p args with
  | Some v => setattr assistant_config (AssistantConfig.set_top_p v)
  | None => ret tt
  end ;;
  emit (Assistant_init assistant_config) ;;
  ret (Assistant.mk assistant_config).

(** [parser.error]: usage and message on standard error, exit status 2.
    Which offending token the message names depends on the order of the
    tokens; the exit status does not. *)
Definition argparse_error {A} : M A :=
  emit argparse_usage_error ;; sys_exit 2.

(** [choices=...]: the converted value must be one of the choices. *)
Definition check_value (choices : list string) (value : string) : M string :=
  if bool_decide (value ∈ choices) then ret value else argparse_error.

(** [type=float] *)
Definition get_float (raw : option string) : M (option float) :=
  match raw with
  | None => ret None
  | Some s =>
      match python_float s with
      | Some x => ret (Some x)
      | None => argparse_error
      end
  end.

Definition assistant_name_choices (config : GptCliConfig.t) : list string :=
  ["dev"; "general"] ++ dict_keys (GptCliConfig.assistants config).

Definition log_level_choices : list string :=
  ["DEBUG"; "INFO"; "WARNING"; "ERROR"; "CRITICAL"].

(** Lines 37-88.  A positional with [nargs="?"] takes its default when
    no token is supplied, and [argparse] checks a string default against
    the choices like a supplied value; the default of an option is not
    checked. *)
Definition parse_args (config : GptCliConfig.t) : M Namespace.t :=
  w <- get ;;
  let argv := sys_argv w in
  assistant_name <-
    check_value (assistant_name_choices config)
      (default (GptCliConfig.default_assistant config)
         (CommandLine.assistant_name argv)) ;;
  let markdown :=
    if CommandLine.no_markdown argv then false
    else GptCliConfig.markdown config in
  let model := CommandLine.model argv in
  temperature <- get_float (CommandLine.temperature argv) ;;
  top_p <- get_float (CommandLine.top_p argv) ;;
  let log_file :=
    match CommandLine.log_file argv with
    | Some f => Some f
    | None => GptCliConfig.log_file config
    end in
  log_level <-
    match CommandLine.log_level argv with
    | Some l => check_value log_level_choices l
    | None => ret (GptCliConfig.log_level config)
    end ;;
  match CommandLine.unrecognized argv with
  | [] =>
      ret (Namespace.mk assistant_name markdown model temperature top_p
             log_file log_level)
  | _ :: _ => argparse_error
  end.

(** Modelled from the spec: [GptCliConfig()], the configuration used
    when [~/.gptrc] is absent: empty custom-assistant mapping, no
    credential, no log file, [INFO] log level.  The default assistant
    is the one the help text of line 47 names; markdown rendering is on
    unless [--no_markdown] turns it off. *)
Definition GptCliConfig_default : GptCliConfig.t :=
  GptCliConfig.mk "general" true None "INFO" None ∅.

(** Truth value of [config.api_key]: [None] and the empty string are
    false. *)
Definition truthy (o : option string) : bool :=
  match o with
  | Some s => negb (String.eqb s "")
  | None => false
  end.

Definition no_api_key_message : string :=
  "No API key found. Please set the OPENAI_API_KEY environment variable or `api_key: <key>` value in ~/.gptrc".

Definition log_format : string :=
  "%(asctime)s - %(name)s - %(levelname)s - %(message)s".

(** Lines 92-95: [read_yaml_config(config_path)] when the file exists,
    [GptCliConfig()] otherwise. *)
Definition load_config : M GptCliConfig.t :=
  w <- get ;;
  match gptrc w with
  | readable cfg => ret cfg
  | malformed e => raise e
  | no_file => ret GptCliConfig_default
  end.

(** The level names [logging] knows, the keys of its [_nameToLevel]. *)
Definition logging_level_names : list string :=
  ["CRITICAL"; "FATAL"; "ERROR"; "WARN"; "WARNING"; "INFO"; "DEBUG"; "NOTSET"].

(** [logging.basicConfig(filename=..., level=..., format=...)].  Unless
    the root logger has a handler already, in which case nothing is
    done, the library opens the file for a [FileHandler] (an empty name
    gives a stream handler on standard error instead), adds the handler
    and then sets the level of the root logger, which raises
    [ValueError] for a name it does not know. *)
Definition basicConfig (filename level format : string) : M unit :=
  emit (logging_basicConfig filename level format) ;;
  w <- get ;;
  if Environment.root_has_handlers (environment w) then ret tt
  else
    (if String.eqb filename "" then ret tt
     else
       match Environment.open_log_file (environment w) filename with
       | Some msg =>
           raise (OSError msg ["main"; "basicConfig"; "FileHandler"; "open"])
       | None => ret tt
       end) ;;
    if bool_decide (level ∈ logging_level_names) then ret tt
    else
      raise (ValueError ("Unknown level: '" ++ level ++ "'")
               ["main"; "basicConfig"; "setLevel"; "_checkLevel"]).

(** [ChatSession(assistant=assistant, markdown=markdown)] *)
Definition new_ChatSession (assistant : Assistant.t) (markdown : bool)
    : M ChatSession.t :=
  emit (ChatSession_init assistant markdown) ;;
  w <- get ;;
  match Environment.ChatSession_fails (environment w) assistant markdown with
  | Some a => leave a
  | None => ret (ChatSession.mk assistant markdown)
  end.

(** [session.loop()] *)
Definition loop (session : ChatSession.t) : M unit :=
  emit (ChatSession_loop session) ;;
  w <- get ;;
  match Environment.loop_ends (environment w) session with
  | Some a => leave a
  | None => ret tt
  end.

(** Lines 91-118. *)
Definition main : M unit :=
  config <- load_config ;;
  args <- parse_args config ;;
  match Namespace.log_file args with
  | Some f =>
      basicConfig f (Namespace.log_level args) log_format ;;
      emit (logging_setLevel "markdown_it" logging_INFO)
  | None => ret tt
  end ;;
  assistant <- init_assistant args (GptCliConfig.assistants config) ;;
  emit (logging_record logging_INFO
          "Starting a new chat session. Assistant config: %s" None
          (Some (Assistant.config assistant))) ;;
  (if truthy (GptCliConfig.api_key config)
   then emit (openai_set_api_key (GptCliConfig.api_key config))
   else emit (print no_api_key_message) ;; sys_exit 1) ;;
  session <- new_ChatSession assistant (Namespace.markdown args) ;;
  loop session.

(** The module body: lines 13, 22 and 121-122. *)
Definition module_body : M unit :=
  save_excepthook ;;
  install_excepthook ;;
  main.

(** What the interpreter does with an exception nobody caught: it calls
    whatever [sys.excepthook] holds. *)
Definition call_excepthook (e : exc_info) : M unit :=
  w <- get ;;
  match sys_excepthook w with
  | exception_handler_hook =>
      exception_handler (exc_type e) (exc_value e) (exc_traceback e)
  | platform_hook name => emit (hook_call (platform_hook name) e)
  end.

(** The triple of a [KeyboardInterrupt]. *)
Definition interrupt_info (traceback : list string) : exc_info :=
  {| exc_type := "KeyboardInterrupt"; exc_value := "";
     exc_traceback := traceback |}.

Definition SIGINT : Z := 2.

(** Running a script to the end of the process: the final state and the
    return code as the parent process sees it, which is the exit status,
    or minus the number of the signal that killed the process.  An
    uncaught exception goes to the hook and gives exit status 1; an
    uncaught [KeyboardInterrupt] goes to the hook too, after which the
    interpreter ends the process by [SIGINT]. *)
Definition python_run (script : M unit) (w : world) : Z * world :=
  match script w with
  | (inr _, w') => (0%Z, w')
  | (inl (SystemExit status), w') => (status, w')
  | (inl (Raised e), w') => (1%Z, (call_excepthook e w').2)
  | (inl (KeyboardInterrupt traceback), w') =>
      ((- SIGINT)%Z, (call_excepthook (interrupt_info traceback) w').2)
  end.

End gpt.

(** ** Vocabulary of the statements *)

(** The three conditional assignments of lines 28-33, as one function on
    the selected record. *)
Definition apply_overrides (args : Namespace.t) (c : AssistantConfig.t)
    : AssistantConfig.t :=
  let c1 :=
    match Namespace.temperature args with
    | Some v => AssistantConfig.set_temperature v c
    | None => c
    end in
  let c2 :=
    match Namespace.model args with
    | Some v => AssistantConfig.set_model v c1
    | None => c1
    end in
  match Namespace.top_p args with
  | Some v => AssistantConfig.set_top_p v c2
  | None => c2
  end.

(** Classifiers of trace events, and counting. *)
Definition is_error_record (e : event) : bool :=
  match e with
  | logging_record levelno _ _ _ => Z.eqb levelno logging_ERROR
  | _ => false
  end.

Definition is_print (e : event) : bool :=
  match e with print _ => true | _ => false end.

Definition is_hook_call (e : event) : bool :=
  match e with hook_call _ _ => true | _ => false end.

Definition is_logging_setup (e : event) : bool :=
  match e with
  | logging_basicConfig _ _ _ | logging_setLevel _ _ => true
  | _ => false
  end.

Definition is_basicConfig (e : event) : bool :=
  match e with logging_basicConfig _ _ _ => true | _ => false end.

Definition is_Assistant_init (e : event) : bool :=
  match e with Assistant_init _ => true | _ => false end.

Definition is_api_key_set (e : event) : bool :=
  match e with openai_set_api_key _ => true | _ => false end.

Definition is_ChatSession_init (e : event) : bool :=
  match e with ChatSession_init _ _ => true | _ => false end.

Definition is_ChatSession_loop (e : event) : bool :=
  match e with ChatSession_loop _ => true | _ => false end.

Definition count (p : event -> bool) (es : list event) : nat :=
  length (List.filter p es).

(** The events of lines 98-105. *)
Definition logging_setup_events (args : Namespace.t) : list event :=
  match Namespace.log_file args with
  | Some f =>
      [logging_basicConfig f (Namespace.log_level args) log_format;
       logging_setLevel "markdown_it" logging_INFO]
  | None => []
  end.

(** The exception [logging.basicConfig] ends with, if it does not
    return. *)
Definition basicConfig_failure (env : Environment.t)
    (filename level : string) : option exc_info :=
  if Environment.root_has_handlers env then None
  else
    match (if String.eqb filename "" then None
           else Environment.open_log_file env filename) with
    | Some msg =>
        Some (OSError msg ["main"; "basicConfig"; "FileHandler"; "open"])
    | None =>
        if bool_decide (level ∈ logging_level_names) then None
        else Some (ValueError ("Unknown level: '" ++ level ++ "'")
                     ["main"; "basicConfig"; "setLevel"; "_checkLevel"])
    end.

(** The exception the set-up of logging at lines 98-105 ends with; [None]
    when it goes through, and when there is no log file. *)
Definition logging_setup_failure (env : Environment.t) (args : Namespace.t)
    : option exc_info :=
  match Namespace.log_file args with
  | Some f => basicConfig_failure env f (Namespace.log_level args)
  | None => None
  end.

(** The calls of lines 117-118 and how they end. *)
Definition session_events (env : Environment.t) (assistant : Assistant.t)
    (markdown : bool) : list event :=
  ChatSession_init assistant markdown ::
  match Environment.ChatSession_fails env assistant markdown with
  | Some _ => []
  | None => [ChatSession_loop (ChatSession.mk assistant markdown)]
  end.

Definition session_outcome (env : Environment.t) (assistant : Assistant.t)
    (markdown : bool) : abort + unit :=
  match Environment.ChatSession_fails env assistant markdown with
  | Some a => inl a
  | None =>
      match Environment.loop_ends env (ChatSession.mk assistant markdown) with
      | Some a => inl a
      | None => inr tt
      end
  end.

(** The events of lines 110-118. *)
Definition credential_events (env : Environment.t) (config : GptCliConfig.t)
    (args : Namespace.t) (l : loc) : list event :=
  if truthy (GptCliConfig.api_key config)
  then openai_set_api_key (GptCliConfig.api_key config) ::
       session_events env (Assistant.mk l) (Namespace.markdown args)
  else [print no_api_key_message].

Definition credential_outcome (env : Environment.t) (config : GptCliConfig.t)
    (args : Namespace.t) (l : loc) : abort + unit :=
  if truthy (GptCliConfig.api_key config)
  then session_outcome env (Assistant.mk l) (Namespace.markdown args)
  else inl (SystemExit 1).

(** The name belongs to the union of the two fixed names and the keys of
    the custom-assistant mapping. *)
Definition known_assistant (config : GptCliConfig.t) (name : string) : Prop :=
  name = "dev" \/ name = "general" \/
  is_Some (GptCliConfig.assistants config !! name).

(** The options of the command line, the positional apart, are ones the
    parser accepts. *)
Definition options_accepted (python_float : string -> option float)
    (argv : CommandLine.t) : bool :=
  match CommandLine.temperature argv with
  | Some s => bool_decide (is_Some (python_float s))
  | None => true
  end &&
  match CommandLine.top_p argv with
  | Some s => bool_decide (is_Some (python_float s))
  | None => true
  end &&
  match CommandLine.log_level argv with
  | Some l => bool_decide (l ∈ log_level_choices)
  | None => true
  end &&
  match CommandLine.unrecognized argv with
  | [] => true
  | _ :: _ => false
  end.

(** The two hook slots of the process state. *)
Definition hooks (w : world) : excepthook * excepthook :=
  (sys_excepthook w, default_exception_handler w).

(** The process state after further collaborator calls. *)
Definition record_events (es : list event) (w : world) : world :=
  mk_world (environment w) (sys_argv w) (gptrc w) (heap w) (sys_excepthook w)
    (default_exception_handler w) (trace w ++ es).

(** The name the positional resolves to. *)
Definition resolved_name (config : GptCliConfig.t) (argv : CommandLine.t)
    : string :=
  default (GptCliConfig.default_assistant config)
    (CommandLine.assistant_name argv).

(** The namespace of an accepted command line, in closed form. *)
Definition resolved_args (python_float : string -> option float)
    (config : GptCliConfig.t) (argv : CommandLine.t) : Namespace.t :=
  Namespace.mk
    (resolved_name config argv)
    (if CommandLine.no_markdown argv then false
     else GptCliConfig.markdown config)
    (CommandLine.model argv)
    (CommandLine.temperature argv ≫= python_float)
    (CommandLine.top_p argv ≫= python_float)
    (match CommandLine.log_file argv with
     | Some f => Some f
     | None => GptCliConfig.log_file config
     end)
    (default (GptCliConfig.log_level config) (CommandLine.log_level argv)).



(** The same process state in another environment. *)
Definition with_environment (env : Environment.t) (w : world) : world :=
  mk_world env (sys_argv w) (gptrc w) (heap w) (sys_excepthook w)
    (default_exception_handler w) (trace w).

(** What the Failure Reporter adds to the trace for the exception [e],
    [original] being the hook it delegates to. *)
Definition failure_report (original : excepthook) (e : exc_info) : list event :=
  [logging_record logging_ERROR "Uncaught exception" (Some e) None;
   print "An uncaught exception occurred. Please report this issue on GitHub.";
   hook_call original e].

(** ** Concrete process states *)

(** A built-in registry with its two entries, and a [float] that knows
    the tokens used below. *)
Definition example_builtins : gmap string loc :=
  {[ "general" := 1%positive; "dev" := 2%positive ]}.

Definition float_0_9 : float := 0x1.ccccccccccccdp-1%float.

Definition example_float (s : string) : option float :=
  if String.eqb s "0.9" then Some float_0_9
  else if String.eqb s "0.5" then Some 0.5%float
  else None.

Definition general_config : AssistantConfig.t :=
  AssistantConfig.mk "gpt-3.5-turbo" None None [("system", "general")].
Definition dev_config : AssistantConfig.t :=
  AssistantConfig.mk "gpt-3.5-turbo" (Some 0.5%float) None [("system", "dev")].
Definition writer_config : AssistantConfig.t :=
  AssistantConfig.mk "m1" (Some 0.5%float) None [].

Definition example_heap : gmap loc AssistantConfig.t :=
  {[ 1%positive := general_config; 2%positive := dev_config;
     3%positive := writer_config ]}.

(** An environment in which nothing goes wrong: no handler on the root
    logger yet, every log file opens, the session is constructed and its
    loop returns. *)
Definition quiet_environment : Environment.t :=
  Environment.mk false (fun _ => None) (fun _ _ => None) (fun _ => None).

Definition fresh_world (argv : CommandLine.t) (file : gptrc_file) : world :=
  mk_world quiet_environment argv file example_heap
    (platform_hook "sys.__excepthook__")
    (platform_hook "sys.__excepthook__") [].

Definition no_arguments : CommandLine.t :=
  CommandLine.mk None false None None None None None [].

(** The example of the spec: a custom assistant [writer] and the command
    line [writer --temperature 0.9]. *)
Definition writer_gptrc : GptCliConfig.t :=
  GptCliConfig.mk "general" true None "INFO" (Some "sk-test")
    {[ "writer" := 3%positive ]}.

Definition writer_argv : CommandLine.t :=
  CommandLine.mk (Some "writer") false None (Some "0.9") None None None [].

Definition writer_args : Namespace.t :=
  Namespace.mk "writer" true None (Some float_0_9) None None "INFO".

Definition writer_world : world := fresh_world writer_argv (readable writer_gptrc).

(** A custom assistant that takes the name of a built-in one. *)
Definition shadowing_assistants : gmap string loc := {[ "dev" := 3%positive ]}.

Definition dev_args : Namespace.t :=
  Namespace.mk "dev" true None None None None "INFO".

(** [general --model gpt-4] without any [~/.gptrc]. *)
Definition gpt4_argv : CommandLine.t :=
  CommandLine.mk (Some "general") false (Some "gpt-4") None None None None [].

Definition gpt4_args : Namespace.t :=
  Namespace.mk "general" true (Some "gpt-4") None None None "INFO".

Definition gpt4_world : world := fresh_world gpt4_argv no_file.

(** No [~/.gptrc] and no argument; no [~/.gptrc] and an unknown name. *)
Definition default_args : Namespace.t :=
  Namespace.mk "general" true None None None None "INFO".

Definition default_world : world := fresh_world no_arguments no_file.

Definition bogus_argv : CommandLine.t :=
  CommandLine.mk (Some "bogus") false None None None None None [].

Definition bogus_world : world := fresh_world bogus_argv no_file.

(** A configuration that asks for a log file, with and without a usable
    credential. *)
Definition logged_gptrc (key : option string) : GptCliConfig.t :=
  GptCliConfig.mk "dev" true (Some "/tmp/gpt.log") "DEBUG" key ∅.

Definition logged_args : Namespace.t :=
  Namespace.mk "dev" true None None None (Some "/tmp/gpt.log") "DEBUG".

Definition logged_world : world :=
  fresh_world no_arguments (readable (logged_gptrc (Some "sk-test"))).

Definition empty_key_world : world :=
  fresh_world no_arguments (readable (logged_gptrc (Some ""))).

(** [--log_file /nonexistent/gpt.log] without any [~/.gptrc], where the
    directory does not exist. *)
Definition unopenable_argv : CommandLine.t :=
  CommandLine.mk None false None None None
    (Some "/nonexistent/gpt.log") None [].

Definition unopenable_args : Namespace.t :=
  Namespace.mk "general" true None None None
    (Some "/nonexistent/gpt.log") "INFO".

Definition no_such_directory : Environment.t :=
  Environment.mk false
    (fun f =>
       if String.eqb f "/nonexistent/gpt.log"
       then Some "[Errno 2] No such file or directory: '/nonexistent/gpt.log'"
       else None)
    (fun _ _ => None) (fun _ => None).

Definition unopenable_world : world :=
  with_environment no_such_directory (fresh_world unopenable_argv no_file).

(** A [~/.gptrc] that [read_yaml_config] rejects. *)
Definition yaml_error : exc_info :=
  {| exc_type := "yaml.scanner.ScannerError";
     exc_value := "mapping values are not allowed here";
     exc_traceback := ["main"; "read_yaml_config"] |}.

Definition malformed_world : world := fresh_world no_arguments (malformed yaml_error).

(** ** Further vocabulary and process states *)

(** The process state once lines 13 and 22 have run. *)
Definition installed (w : world) : world :=
  mk_world (environment w) (sys_argv w) (gptrc w) (heap w) exception_handler_hook
    (sys_excepthook w) (trace w).

(** The command line is one [parse_args] accepts. *)
Definition command_line_accepted (python_float : string -> option float)
    (config : GptCliConfig.t) (argv : CommandLine.t) : bool :=
  bool_decide (resolved_name config argv ∈ assistant_name_choices config)
  && options_accepted python_float argv.

(** The log record of line 108. *)
Definition starting_record (l : loc) : event :=
  logging_record logging_INFO
    "Starting a new chat session. Assistant config: %s" None (Some l).

(** A built-in registry that has lost its entries. *)
Definition empty_builtins : gmap string loc := ∅.

(** [dev --no_markdown --log_file /tmp/cli.log --log_level WARNING], on
    the configuration that asks for [/tmp/gpt.log] at [DEBUG]. *)
Definition cli_logging_argv : CommandLine.t :=
  CommandLine.mk (Some "dev") true None None None
    (Some "/tmp/cli.log") (Some "WARNING") [].

Definition cli_logging_args : Namespace.t :=
  Namespace.mk "dev" false None None None (Some "/tmp/cli.log") "WARNING".

Definition cli_logging_world : world :=
  fresh_world cli_logging_argv (readable (logged_gptrc (Some "sk-test"))).

(** A configuration whose log level is none of the five names, and the
    same level on the command line. *)
Definition verbose_gptrc : GptCliConfig.t :=
  GptCliConfig.mk "general" true (Some "/tmp/gpt.log") "VERBOSE" None ∅.

Definition verbose_args : Namespace.t :=
  Namespace.mk "general" true None None None (Some "/tmp/gpt.log") "VERBOSE".

Definition verbose_config_world : world :=
  fresh_world no_arguments (readable verbose_gptrc).

Definition verbose_argv : CommandLine.t :=
  CommandLine.mk None false None None None None (Some "VERBOSE") [].

Definition verbose_cli_world : world := fresh_world verbose_argv no_file.

(** An unknown name on the command line and a [~/.gptrc] that cannot be
    read. *)
Definition bogus_malformed_world : world :=
  fresh_world bogus_argv (malformed yaml_error).

(** Ctrl-C during the loop of the session. *)
Definition interrupting_environment : Environment.t :=
  Environment.mk false (fun _ => None) (fun _ _ => None)
    (fun _ => Some (KeyboardInterrupt ["main"; "loop"])).

Definition interrupted_world : world :=
  with_environment interrupting_environment writer_world.



(** * Properties *)

(** ** Dictionaries *)

Lemma dict_update_union {V} (d other : gmap string V) :
  dict_update d other = other ∪ d.
Proof.
  unfold dict_update.
  apply (map_fold_weak_ind (fun r m => r = m ∪ d)).
  - by rewrite (left_id_L ∅ (∪)).
  - intros k v m r Hk ->. by rewrite insert_union_l.
Qed.

Lemma dict_unpack_lookup {V} (a b : gmap string V) (key : string) :
  dict_unpack a b !! key =
    match b !! key with
    | Some v => Some v
    | None => a !! key
    end.
Proof.
  unfold dict_unpack. rewrite !dict_update_union, (right_id_L ∅ (∪)).
  rewrite lookup_union. destruct (b !! key), (a !! key); done.
Qed.

Lemma elem_of_dict_keys {V} (d : gmap string V) (key : string) :
  key ∈ dict_keys d ↔ is_Some (d !! key).
Proof.
  unfold dict_keys. rewrite list_elem_of_fmap. split.
  - intros [[k v] [-> Hin]]. apply elem_of_map_to_list in Hin. by exists v.
  - intros [v Hv]. exists (key, v). split; [done|]. by apply elem_of_map_to_list.
Qed.

(** ** The record of overrides *)

Lemma apply_overrides_fields (args : Namespace.t) (c : AssistantConfig.t) :
  apply_overrides args c =
    AssistantConfig.mk
      (default (AssistantConfig.model c) (Namespace.model args))
      (match Namespace.temperature args with
       | Some v => Some v
       | None => AssistantConfig.temperature c
       end)
      (match Namespace.top_p args with
       | Some v => Some v
       | None => AssistantConfig.top_p c
       end)
      (AssistantConfig.messages c).
Proof.
  unfold apply_overrides.
  destruct c, (Namespace.temperature args), (Namespace.model args),
    (Namespace.top_p args); reflexivity.
Qed.

Lemma apply_overrides_none (args : Namespace.t) (c : AssistantConfig.t) :
  Namespace.temperature args = None ->
  Namespace.model args = None ->
  Namespace.top_p args = None ->
  apply_overrides args c = c.
Proof.
  intros Ht Hm Hp. unfold apply_overrides. rewrite Ht, Hm, Hp. reflexivity.
Qed.

(** ** The exception hook, run *)

Lemma exception_handler_run (e : exc_info) (w : world) :
  exception_handler (exc_type e) (exc_value e) (exc_traceback e) w
    = (inr tt,
       record_events (failure_report (default_exception_handler w) e) w).
Proof.
  unfold exception_handler, bind, emit, get, record_events, failure_report.
  destruct e; simpl. by rewrite <- !app_assoc.
Qed.

(** ** The command line *)

Lemma choices_known (config : GptCliConfig.t) (name : string) :
  name ∈ assistant_name_choices config <-> known_assistant config name.
Proof.
  unfold assistant_name_choices, known_assistant.
  rewrite elem_of_app, elem_of_dict_keys, !elem_of_cons, elem_of_nil.
  tauto.
Qed.

Section gpt_lemmas.

Variable DEFAULT_ASSISTANTS : gmap string loc.
Variable python_float : string -> option float.

Abbreviation init_assistant' := (init_assistant DEFAULT_ASSISTANTS).
Abbreviation parse_args' := (parse_args python_float).
Abbreviation main' := (main DEFAULT_ASSISTANTS python_float).

(** *** [init_assistant], run *)

Lemma init_assistant_found args custom w l :
  dict_unpack DEFAULT_ASSISTANTS custom !! Namespace.assistant_name args = Some l ->
  init_assistant' args custom w =
    (inr (Assistant.mk l),
     mk_world (environment w) (sys_argv w) (gptrc w)
       (alter (apply_overrides args) l (heap w))
       (sys_excepthook w) (default_exception_handler w)
       (trace w ++ [Assistant_init l])).
Proof.
  intros Hl. unfold init_assistant, bind, dict_getitem. rewrite Hl.
  unfold apply_overrides, ret, setattr, set_heap, emit.
  destruct (Namespace.temperature args), (Namespace.model args),
    (Namespace.top_p args); simpl;
    rewrite ?alter_alter_eq;
    try reflexivity.
  rewrite alter_id; [reflexivity | done].
Qed.

Lemma init_assistant_missing args custom w :
  dict_unpack DEFAULT_ASSISTANTS custom !! Namespace.assistant_name args = None ->
  init_assistant' args custom w =
    (inl (Raised (KeyError (Namespace.assistant_name args)
                    ["main"; "init_assistant"])), w).
Proof.
  intros Hl. unfold init_assistant, bind, dict_getitem. rewrite Hl. reflexivity.
Qed.


(** *** [parse_args], in closed form *)

Lemma parse_args_closed_form config w :
  parse_args' config w =
    if bool_decide (resolved_name config (sys_argv w)
                      ∈ assistant_name_choices config)
       && options_accepted python_float (sys_argv w)
    then (inr (resolved_args python_float config (sys_argv w)), w)
    else (inl (SystemExit 2), record_events [argparse_usage_error] w).
Proof.
  unfold parse_args, bind, get, check_value, get_float, argparse_error,
    options_accepted, resolved_args, resolved_name, record_events, bind,
    emit, sys_exit, ret.
  destruct w as [env argv file h sh dh tr].
  destruct argv as [name nomd model temp topp lfile llevel extra]; simpl.
  case_bool_decide; simpl; [|reflexivity].
  destruct temp as [t|], topp as [p|], llevel as [lv|], extra as [|x xs];
    simpl;
    repeat (match goal with
            | |- context [python_float ?s] =>
                destruct (python_float s) eqn:?; simpl
            end);
    repeat case_bool_decide; simpl; try reflexivity;
    exfalso; naive_solver.
Qed.

Lemma parse_args_inr config w args w' :
  parse_args' config w = (inr args, w') ->
  w' = w /\ args = resolved_args python_float config (sys_argv w) /\
  Namespace.assistant_name args ∈ assistant_name_choices config /\
  options_accepted python_float (sys_argv w) = true.
Proof.
  rewrite parse_args_closed_form.
  case_bool_decide as Hn; simpl; [|discriminate].
  destruct (options_accepted _ _); [|discriminate].
  intros [= <- <-]. done.
Qed.

Lemma known_assistant_found config name :
  is_Some (DEFAULT_ASSISTANTS !! "dev") ->
  is_Some (DEFAULT_ASSISTANTS !! "general") ->
  known_assistant config name ->
  is_Some (dict_unpack DEFAULT_ASSISTANTS (GptCliConfig.assistants config)
             !! name).
Proof.
  intros Hdev Hgen Hk. rewrite dict_unpack_lookup.
  destruct (GptCliConfig.assistants config !! name) as [l|] eqn:Hc; [eauto|].
  destruct Hk as [-> | [-> | [? ?]]]; [assumption | assumption | congruence].
Qed.


(** *** [main], run *)

Lemma load_config_inr w config w' :
  load_config w = (inr config, w') ->
  w' = w /\
  (gptrc w = readable config \/
   (gptrc w = no_file /\ config = GptCliConfig_default)).
Proof.
  unfold load_config, bind, get, ret, raise.
  destruct (gptrc w); intros [= <- <-]; eauto.
Qed.

Lemma main_load_failed w a w' :
  load_config w = (inl a, w') -> main' w = (inl a, w).
Proof.
  unfold main, bind. intros Hl. rewrite Hl. f_equal.
  revert Hl. unfold load_config, bind, get, ret, raise.
  destruct (gptrc w); intros [= ? ?]; done.
Qed.

Lemma main_rejected w config a w' :
  load_config w = (inr config, w) ->
  parse_args' config w = (inl a, w') ->
  main' w = (inl (SystemExit 2), record_events [argparse_usage_error] w).
Proof.
  intros Hl Hp. unfold main, bind. rewrite Hl, Hp.
  revert Hp. rewrite parse_args_closed_form.
  destruct (_ && _); intros [= <- <-]; reflexivity.
Qed.

(** [logging.basicConfig] and the session, run. *)
Lemma basicConfig_run filename level format w :
  basicConfig filename level format w =
    (match basicConfig_failure (environment w) filename level with
     | Some e => inl (Raised e)
     | None => inr tt
     end,
     record_events [logging_basicConfig filename level format] w).
Proof.
  unfold basicConfig, basicConfig_failure, bind, emit, get, ret, raise,
    record_events; simpl.
  destruct (Environment.root_has_handlers (environment w)); [reflexivity|].
  destruct (String.eqb filename ""); simpl.
  - by case_bool_decide.
  - destruct (Environment.open_log_file (environment w) filename);
      [reflexivity|]. by case_bool_decide.
Qed.

Lemma session_run assistant markdown w :
  (session <- new_ChatSession assistant markdown ;; loop session) w =
    (session_outcome (environment w) assistant markdown,
     record_events (session_events (environment w) assistant markdown) w).
Proof.
  unfold new_ChatSession, loop, session_outcome, session_events, bind, emit,
    get, ret, leave, record_events; simpl.
  destruct (Environment.ChatSession_fails (environment w) assistant markdown);
    [reflexivity|]. simpl.
  destruct (Environment.loop_ends (environment w) _); simpl;
    by rewrite <- app_assoc.
Qed.

Lemma main_logging_failed w config args e :
  load_config w = (inr config, w) ->
  parse_args' config w = (inr args, w) ->
  logging_setup_failure (environment w) args = Some e ->
  main' w =
    (inl (Raised e),
     record_events
       (match Namespace.log_file args with
        | Some f =>
            [logging_basicConfig f (Namespace.log_level args) log_format]
        | None => []
        end) w).
Proof.
  intros Hl Hp He. unfold main, bind. rewrite Hl, Hp.
  unfold logging_setup_failure in He.
  destruct (Namespace.log_file args) as [f|]; [|discriminate].
  rewrite basicConfig_run, He. reflexivity.
Qed.

Lemma main_key_error w config args :
  load_config w = (inr config, w) ->
  parse_args' config w = (inr args, w) ->
  logging_setup_failure (environment w) args = None ->
  dict_unpack DEFAULT_ASSISTANTS (GptCliConfig.assistants config)
    !! Namespace.assistant_name args = None ->
  main' w =
    (inl (Raised (KeyError (Namespace.assistant_name args)
                    ["main"; "init_assistant"])),
     record_events (logging_setup_events args) w).
Proof.
  intros Hl Hp He Hk. unfold main, bind. rewrite Hl, Hp.
  unfold logging_setup_failure in He.
  unfold logging_setup_events, record_events.
  destruct (Namespace.log_file args) as [f|].
  - rewrite basicConfig_run, He. unfold emit, ret; simpl.
    rewrite (init_assistant_missing _ _ _ Hk). by rewrite <- app_assoc.
  - unfold ret. rewrite (init_assistant_missing _ _ _ Hk).
    destruct w; simpl. by rewrite app_nil_r.
Qed.

Lemma main_run w config args l :
  load_config w = (inr config, w) ->
  parse_args' config w = (inr args, w) ->
  logging_setup_failure (environment w) args = None ->
  dict_unpack DEFAULT_ASSISTANTS (GptCliConfig.assistants config)
    !! Namespace.assistant_name args = Some l ->
  main' w =
    (credential_outcome (environment w) config args l,
     mk_world (environment w) (sys_argv w) (gptrc w)
       (alter (apply_overrides args) l (heap w))
       (sys_excepthook w) (default_exception_handler w)
       (trace w ++ logging_setup_events args ++
        [Assistant_init l;
         logging_record logging_INFO
           "Starting a new chat session. Assistant config: %s" None (Some l)]
        ++ credential_events (environment w) config args l)).
Proof.
  intros Hl Hp He Hk. unfold main, bind. rewrite Hl, Hp.
  unfold logging_setup_failure in He.
  unfold logging_setup_events, credential_events, credential_outcome.
  destruct (Namespace.log_file args) as [f|];
    [rewrite basicConfig_run, He|]; unfold emit, ret; simpl;
    rewrite (init_assistant_found _ _ _ _ Hk); simpl;
    destruct (truthy (GptCliConfig.api_key config)); simpl;
    try (unfold sys_exit; simpl; rewrite <- ?app_assoc; reflexivity);
    unfold new_ChatSession, loop, session_outcome, session_events, bind,
      emit, get, ret, leave; simpl;
    destruct (Environment.ChatSession_fails (environment w) _ _); simpl;
    try (rewrite <- ?app_assoc; reflexivity);
    destruct (Environment.loop_ends (environment w) _); simpl;
    rewrite <- ?app_assoc; reflexivity.
Qed.

(** *** The hooks *)

Lemma main_preserves_hooks w : hooks (main' w).2 = hooks w.
Proof.
  destruct (load_config w) as [[a|config] w0] eqn:Hload.
  { by rewrite (main_load_failed _ _ _ Hload). }
  destruct (load_config_inr _ _ _ Hload) as [-> _].
  destruct (parse_args' config w) as [[a|args] w1] eqn:Hparse.
  { by rewrite (main_rejected _ _ _ _ Hload Hparse). }
  destruct (parse_args_inr _ _ _ _ Hparse) as [-> _].
  destruct (logging_setup_failure (environment w) args) as [e|] eqn:He.
  { by rewrite (main_logging_failed _ _ _ _ Hload Hparse He). }
  destruct (dict_unpack DEFAULT_ASSISTANTS (GptCliConfig.assistants config)
              !! Namespace.assistant_name args) as [l|] eqn:Hl.
  - by rewrite (main_run _ _ _ _ Hload Hparse He Hl).
  - by rewrite (main_key_error _ _ _ Hload Hparse He Hl).
Qed.

Lemma module_body_hooks w :
  hooks (module_body DEFAULT_ASSISTANTS python_float w).2
    = (exception_handler_hook, sys_excepthook w).
Proof.
  unfold module_body, bind, save_excepthook, install_excepthook.
  by rewrite main_preserves_hooks.
Qed.

End gpt_lemmas.

(** ** The claims of the specification *)

Section gpt_properties.

Variable DEFAULT_ASSISTANTS : gmap string loc.
Variable python_float : string -> option float.

(** The built-in registry defines the two names the parser always
    offers. *)
Hypothesis builtin_dev : is_Some (DEFAULT_ASSISTANTS !! "dev").
Hypothesis builtin_general : is_Some (DEFAULT_ASSISTANTS !! "general").

Abbreviation init_assistant_ := (init_assistant DEFAULT_ASSISTANTS).
Abbreviation parse_args_ := (parse_args python_float).
Abbreviation main_ := (main DEFAULT_ASSISTANTS python_float).

Lemma accepted_name_found w config args :
  parse_args_ config w = (inr args, w) ->
  exists l,
    dict_unpack DEFAULT_ASSISTANTS (GptCliConfig.assistants config)
      !! Namespace.assistant_name args = Some l.
Proof.
  intros Hp.
  destruct (parse_args_inr _ _ _ _ _ Hp) as (_ & _ & Hin & _).
  rewrite choices_known in Hin.
  destruct (known_assistant_found DEFAULT_ASSISTANTS config _
              builtin_dev builtin_general Hin) as [l Hl].
  by exists l.
Qed.

(** C1.  Whatever the base configuration of the selected assistant and
    whatever the parsed command line, the configuration of the Assistant
    that [init_assistant] returns has, for each of [model],
    [temperature] and [top_p] separately, the command-line value when
    one was given and the base value when none was; its other fields are
    those of the base. *)
Theorem init_assistant_merges_overrides
    (args : Namespace.t) (custom : gmap string loc) (w : world)
    (l : loc) (base : AssistantConfig.t) :
  dict_unpack DEFAULT_ASSISTANTS custom !! Namespace.assistant_name args
    = Some l ->
  heap w !! l = Some base ->
  exists w' resolved,
    init_assistant_ args custom w = (inr (Assistant.mk l), w') /\
    heap w' !! l = Some resolved /\
    AssistantConfig.model resolved =
      match Namespace.model args with
      | Some v => v
      | None => AssistantConfig.model base
      end /\
    AssistantConfig.temperature resolved =
      match Namespace.temperature args with
      | Some v => Some v
      | None => AssistantConfig.temperature base
      end /\
    AssistantConfig.top_p resolved =
      match Namespace.top_p args with
      | Some v => Some v
      | None => AssistantConfig.top_p base
      end /\
    AssistantConfig.messages resolved = AssistantConfig.messages base.
Proof.
  intros Hl Hbase. eexists _, (apply_overrides args base).
  split; [apply init_assistant_found, Hl|]. simpl.
  split; [by rewrite lookup_alter_eq, Hbase|].
  rewrite apply_overrides_fields. simpl.
  destruct (Namespace.model args); done.
Qed.

(** C2, as amended.  [init_assistant] changes nothing of the process
    state but the trace, which gains the one construction of the
    Assistant, and the selected configuration object: every other object
    of the heap is as before, the selected one has the non-null
    overrides assigned in place (it is the very object the registry
    holds), and with no override the heap is as before. *)
Theorem init_assistant_frame
    (args : Namespace.t) (custom : gmap string loc) (w : world) :
  let selected :=
    dict_unpack DEFAULT_ASSISTANTS custom !! Namespace.assistant_name args in
  let w' := (init_assistant_ args custom w).2 in
  sys_argv w' = sys_argv w /\
  gptrc w' = gptrc w /\
  hooks w' = hooks w /\
  trace w' =
    (trace w ++ match selected with
                | Some l => [Assistant_init l]
                | None => []
                end)%list /\
  (forall l, selected <> Some l -> heap w' !! l = heap w !! l) /\
  (forall l, selected = Some l ->
     heap w' !! l = apply_overrides args <$> heap w !! l) /\
  (Namespace.temperature args = None ->
   Namespace.model args = None ->
   Namespace.top_p args = None ->
   heap w' = heap w).
Proof.
  simpl.
  destruct (dict_unpack DEFAULT_ASSISTANTS custom
              !! Namespace.assistant_name args) as [l|] eqn:Hl.
  - rewrite (init_assistant_found _ _ _ _ _ Hl). simpl.
    repeat split.
    + intros l' Hne. apply lookup_alter_ne. congruence.
    + intros l' [= <-]. apply lookup_alter_eq.
    + intros Ht Hm Hp. apply alter_id. intros c _.
      by apply apply_overrides_none.
  - rewrite (init_assistant_missing _ _ _ _ Hl). simpl.
    repeat split; [by rewrite app_nil_r | done..].
Qed.

(** C3.  A positional assistant name is accepted exactly when it is
    ["dev"], ["general"] or a key of the custom-assistant mapping: such
    a name is what the parser returns (the rest of the command line
    being well-formed), and any other name makes [parse_args], and
    [main] with it, leave with exit status 2 after the usage error
    alone, so that no Assistant is constructed and the heap is
    untouched. *)
Theorem parse_args_validates_assistant_name
    (w : world) (config : GptCliConfig.t) (name : string) :
  CommandLine.assistant_name (sys_argv w) = Some name ->
  load_config w = (inr config, w) ->
  (known_assistant config name ->
   options_accepted python_float (sys_argv w) = true ->
   exists args,
     parse_args_ config w = (inr args, w) /\
     Namespace.assistant_name args = name) /\
  (~ known_assistant config name ->
   parse_args_ config w =
     (inl (SystemExit 2), record_events [argparse_usage_error] w) /\
   main_ w =
     (inl (SystemExit 2), record_events [argparse_usage_error] w) /\
   count is_Assistant_init
     (drop (length (trace w)) (trace (main_ w).2)) = 0).
Proof.
  intros Hname Hload.
  assert (Hres : resolved_name config (sys_argv w) = name)
    by (unfold resolved_name; by rewrite Hname).
  pose proof (parse_args_closed_form python_float config w) as Hcf.
  rewrite Hres in Hcf. split.
  - intros Hk Hopt. apply choices_known in Hk.
    rewrite bool_decide_true, Hopt in Hcf by done. simpl in Hcf.
    eexists. split; [exact Hcf|]. simpl. exact Hres.
  - intros Hk. rewrite <- choices_known in Hk.
    rewrite bool_decide_false in Hcf by done. simpl in Hcf.
    assert (Hmain : main_ w =
      (inl (SystemExit 2), record_events [argparse_usage_error] w))
      by (eapply main_rejected; eauto).
    repeat split; [exact Hcf | exact Hmain |].
    rewrite Hmain. simpl. by rewrite drop_app_length.
Qed.

(** C4.  The lookup table of [init_assistant] is the built-in registry
    overlaid by the custom mapping: a name of the custom mapping yields
    the custom entry, the very object, whether or not the built-in
    registry has the name too; any other name yields what the built-in
    registry has for it; and the Assistant is built on the entry so
    found.  For a name of the custom mapping the resolved record is the
    custom record with the overrides of the command line, and a built-in
    object of the same name is left as it was: no field of it is merged
    in. *)
Theorem all_assistants_overlay
    (custom : gmap string loc) (args : Namespace.t) (w : world) :
  let overlay name :=
    match custom !! name with
    | Some l => Some l
    | None => DEFAULT_ASSISTANTS !! name
    end in
  let name := Namespace.assistant_name args in
  let w' := (init_assistant_ args custom w).2 in
  (forall key, dict_unpack DEFAULT_ASSISTANTS custom !! key = overlay key) /\
  (init_assistant_ args custom w).1 =
    match overlay name with
    | Some l => inr (Assistant.mk l)
    | None => inl (Raised (KeyError name ["main"; "init_assistant"]))
    end /\
  (forall lc,
     custom !! name = Some lc ->
     heap w' !! lc = apply_overrides args <$> heap w !! lc /\
     forall lb,
       DEFAULT_ASSISTANTS !! name = Some lb -> lb <> lc ->
       heap w' !! lb = heap w !! lb).
Proof.
  simpl. split; [intros key; apply dict_unpack_lookup|].
  rewrite <- dict_unpack_lookup.
  destruct (dict_unpack DEFAULT_ASSISTANTS custom
              !! Namespace.assistant_name args) as [l|] eqn:Hl.
  - rewrite (init_assistant_found _ _ _ _ _ Hl). simpl.
    split; [reflexivity|]. intros lc Hc.
    rewrite dict_unpack_lookup, Hc in Hl. injection Hl as <-.
    split; [apply lookup_alter_eq|].
    intros lb _ Hne. apply lookup_alter_ne. congruence.
  - rewrite (init_assistant_missing _ _ _ _ Hl). simpl.
    split; [reflexivity|]. intros lc Hc.
    rewrite dict_unpack_lookup, Hc in Hl. discriminate.
Qed.

(** C5, as amended.  When the command line is accepted, the set-up of
    logging, if any, goes through and the configuration carries no
    credential, [main] prints the instruction and leaves with exit
    status 1: nothing is pushed to the transport and no session is
    constructed or run.  This is the case whenever [~/.gptrc] does not
    exist, the configuration then being the default one. *)
Theorem main_missing_credential
    (w : world) (config : GptCliConfig.t) (args : Namespace.t) :
  load_config w = (inr config, w) ->
  parse_args_ config w = (inr args, w) ->
  logging_setup_failure (environment w) args = None ->
  gptrc w = no_file \/ truthy (GptCliConfig.api_key config) = false ->
  (gptrc w = no_file -> config = GptCliConfig_default) /\
  exists w' before,
    main_ w = (inl (SystemExit 1), w') /\
    trace w' = (trace w ++ before ++ [print no_api_key_message])%list /\
    count is_print before = 0 /\
    count is_api_key_set before = 0 /\
    count is_ChatSession_init before = 0 /\
    count is_ChatSession_loop before = 0.
Proof.
  intros Hload Hparse Hlog Hcred.
  destruct (load_config_inr _ _ _ Hload) as [_ Hfile].
  assert (Hdef : gptrc w = no_file -> config = GptCliConfig_default).
  { intros Hno. destruct Hfile as [Hr | [_ ->]]; [congruence | done]. }
  assert (Hfalse : truthy (GptCliConfig.api_key config) = false).
  { destruct Hcred as [Hno | ?]; [|done]. by rewrite (Hdef Hno). }
  split; [exact Hdef|].
  destruct (accepted_name_found _ _ _ Hparse) as [l Hl].
  rewrite (main_run _ _ _ _ _ _ Hload Hparse Hlog Hl).
  unfold credential_events, credential_outcome. rewrite Hfalse.
  eexists _, (logging_setup_events args ++ [_; _])%list.
  split; [reflexivity|]. simpl.
  split; [by rewrite <- app_assoc|].
  unfold logging_setup_events.
  destruct (Namespace.log_file args); done.
Qed.

(** C6.  Whatever runs after the two hook assignments of the module: if
    it ends in an uncaught exception, the hooks being as the module set
    them, the handler the interpreter then calls returns after adding to
    the trace one error-severity log record holding the exception's
    type, value and traceback, one printed apology, and last the call of
    the hook that [sys.excepthook] held when the module was loaded. *)
Theorem failure_reporter_contract
    (script : M unit) (w w1 : world) (e : exc_info) :
  (save_excepthook ;; install_excepthook ;; script) w
    = (inl (Raised e), w1) ->
  hooks w1 = (exception_handler_hook, sys_excepthook w) ->
  let report := failure_report (sys_excepthook w) e in
  call_excepthook e w1 = (inr tt, record_events report w1) /\
  exception_handler (exc_type e) (exc_value e) (exc_traceback e) w1
    = (inr tt, record_events report w1) /\
  List.filter is_error_record report =
    [logging_record logging_ERROR "Uncaught exception" (Some e) None] /\
  count is_print report = 1 /\
  count is_hook_call report = 1 /\
  last report = Some (hook_call (sys_excepthook w) e).
Proof.
  intros Hrun Hhooks. simpl.
  unfold hooks in Hhooks. injection Hhooks as Hs Hd.
  pose proof (exception_handler_run e w1) as Hh. rewrite Hd in Hh.
  split; [|split; [exact Hh | done]].
  unfold call_excepthook, bind, get. by rewrite Hs, Hh.
Qed.



(** C9.  Whatever the configuration, the namespace of an accepted
    command line has [model], [temperature] and [top_p] at [None] when
    the corresponding option does not occur. *)
Theorem parse_args_overrides_unset_by_default
    (w w' : world) (config : GptCliConfig.t) (args : Namespace.t) :
  parse_args_ config w = (inr args, w') ->
  (CommandLine.model (sys_argv w) = None ->
   Namespace.model args = None) /\
  (CommandLine.temperature (sys_argv w) = None ->
   Namespace.temperature args = None) /\
  (CommandLine.top_p (sys_argv w) = None ->
   Namespace.top_p args = None).
Proof.
  intros Hparse.
  destruct (parse_args_inr _ _ _ _ _ Hparse) as (_ & -> & _ & _).
  unfold resolved_args; simpl.
  repeat split; intros ->; reflexivity.
Qed.


End gpt_properties.

(** ** The statements at concrete process states *)

Lemma example_builtins_dev : is_Some (example_builtins !! "dev").
Proof. exists 2%positive. reflexivity. Defined.

Lemma example_builtins_general : is_Some (example_builtins !! "general").
Proof. exists 1%positive. reflexivity. Defined.

(** The example of the spec: [writer --temperature 0.9] keeps the model
    and the [top_p] of [writer] and takes the temperature of the command
    line. *)
Lemma init_assistant_merges_overrides_witness :
  dict_unpack example_builtins (GptCliConfig.assistants writer_gptrc)
    !! Namespace.assistant_name writer_args = Some 3%positive /\
  heap writer_world !! 3%positive = Some writer_config /\
  exists w' resolved,
    init_assistant example_builtins writer_args
      (GptCliConfig.assistants writer_gptrc) writer_world
      = (inr (Assistant.mk 3), w') /\
    heap w' !! 3%positive = Some resolved /\
    AssistantConfig.model resolved = "m1" /\
    AssistantConfig.temperature resolved = Some float_0_9 /\
    AssistantConfig.top_p resolved = None /\
    AssistantConfig.messages resolved = [].
Proof.
  assert (H1 : dict_unpack example_builtins
                 (GptCliConfig.assistants writer_gptrc)
                 !! Namespace.assistant_name writer_args = Some 3%positive)
    by (vm_compute; reflexivity).
  assert (H2 : heap writer_world !! 3%positive = Some writer_config)
    by (vm_compute; reflexivity).
  split; [exact H1|]. split; [exact H2|].
  exact (init_assistant_merges_overrides example_builtins writer_args
           (GptCliConfig.assistants writer_gptrc) writer_world 3%positive
           writer_config H1 H2).
Defined.

(** C2, as stated, fails: after [init_assistant] the objects held by the
    registries have changed.  [writer --temperature 0.9] leaves the
    custom entry [writer] with temperature 0.9 instead of 0.5, and
    [general --model gpt-4] leaves the built-in entry [general] with
    model [gpt-4]. *)
Lemma init_assistant_mutates_registry_entry :
  let w1 :=
    (init_assistant example_builtins writer_args
       (GptCliConfig.assistants writer_gptrc) writer_world).2 in
  let w2 := (init_assistant example_builtins gpt4_args ∅ gpt4_world).2 in
  (GptCliConfig.assistants writer_gptrc !! "writer" = Some 3%positive /\
   heap writer_world !! 3%positive
     = Some (AssistantConfig.mk "m1" (Some 0.5%float) None []) /\
   heap w1 !! 3%positive
     = Some (AssistantConfig.mk "m1" (Some float_0_9) None []) /\
   heap w1 !! 3%positive <> heap writer_world !! 3%positive) /\
  (example_builtins !! "general" = Some 1%positive /\
   heap gpt4_world !! 1%positive
     = Some (AssistantConfig.mk "gpt-3.5-turbo" None None
               [("system", "general")]) /\
   heap w2 !! 1%positive
     = Some (AssistantConfig.mk "gpt-4" None None [("system", "general")]) /\
   heap w2 !! 1%positive <> heap gpt4_world !! 1%positive).
Proof.
  vm_compute. repeat split; discriminate.
Qed.

Lemma init_assistant_frame_witness :
  heap (init_assistant example_builtins gpt4_args ∅ gpt4_world).2
    !! 2%positive = heap gpt4_world !! 2%positive /\
  heap (init_assistant example_builtins gpt4_args ∅ gpt4_world).2
    !! 1%positive = apply_overrides gpt4_args <$> heap gpt4_world !! 1%positive /\
  heap (init_assistant example_builtins default_args ∅ default_world).2
    = heap default_world.
Proof.
  destruct (init_assistant_frame example_builtins gpt4_args ∅ gpt4_world)
    as (_ & _ & _ & _ & Hother & Hsel & _).
  destruct (init_assistant_frame example_builtins default_args ∅ default_world)
    as (_ & _ & _ & _ & _ & _ & Hnone).
  split; [apply Hother; vm_compute; discriminate|].
  split; [apply Hsel; vm_compute; reflexivity|].
  apply Hnone; reflexivity.
Defined.

Lemma parse_args_validates_assistant_name_witness :
  (exists args,
     parse_args example_float writer_gptrc writer_world
       = (inr args, writer_world) /\
     Namespace.assistant_name args = "writer") /\
  main example_builtins example_float bogus_world
    = (inl (SystemExit 2), record_events [argparse_usage_error] bogus_world).
Proof.
  split.
  - apply (parse_args_validates_assistant_name example_builtins example_float
             writer_world writer_gptrc "writer");
      [reflexivity | reflexivity | | vm_compute; reflexivity].
    right; right. exists 3%positive. vm_compute; reflexivity.
  - apply (parse_args_validates_assistant_name example_builtins example_float
             bogus_world GptCliConfig_default "bogus");
      [reflexivity | reflexivity |].
    intros [H | [H | [l H]]]; vm_compute in H; discriminate.
Defined.

Lemma all_assistants_overlay_witness :
  dict_unpack example_builtins shadowing_assistants !! "dev"
    = Some 3%positive /\
  dict_unpack example_builtins shadowing_assistants !! "general"
    = Some 1%positive /\
  (init_assistant example_builtins dev_args shadowing_assistants
     default_world).1 = inr (Assistant.mk 3) /\
  heap (init_assistant example_builtins dev_args shadowing_assistants
          default_world).2 !! 3%positive = Some writer_config /\
  heap (init_assistant example_builtins dev_args shadowing_assistants
          default_world).2 !! 2%positive = Some dev_config.
Proof.
  destruct (all_assistants_overlay example_builtins shadowing_assistants
              dev_args default_world) as (Htable & Hres & Hrec).
  split; [rewrite Htable; reflexivity|].
  split; [rewrite Htable; reflexivity|].
  split; [exact Hres|].
  destruct (Hrec 3%positive) as [Hc Hb]; [reflexivity|].
  split; [rewrite Hc; reflexivity|].
  rewrite (Hb 2%positive); [reflexivity | reflexivity | discriminate].
Defined.

(** C5, as stated, fails.  Without any [~/.gptrc], the command line
    [bogus] ends the process with exit status 2, not 1, and prints the
    parser's usage error in place of the instruction; and
    [--log_file /nonexistent/gpt.log] ends [main] by the [OSError] of
    [logging.basicConfig], before anything is printed. *)
Lemma main_no_file_unknown_name_exits_2 :
  gptrc bogus_world = no_file /\
  (main example_builtins example_float bogus_world).1
    = inl (SystemExit 2) /\
  (main example_builtins example_float bogus_world).1
    <> inl (SystemExit 1) /\
  (python_run (module_body example_builtins example_float) bogus_world).1
    = 2%Z /\
  trace (main example_builtins example_float bogus_world).2
    = [argparse_usage_error] /\
  gptrc unopenable_world = no_file /\
  (main example_builtins example_float unopenable_world).1
    = inl (Raised
             (OSError
                "[Errno 2] No such file or directory: '/nonexistent/gpt.log'"
                ["main"; "basicConfig"; "FileHandler"; "open"])) /\
  trace (main example_builtins example_float unopenable_world).2
    = [logging_basicConfig "/nonexistent/gpt.log" "INFO" log_format].
Proof.
  vm_compute. repeat split; discriminate.
Qed.

Lemma main_missing_credential_witness :
  gptrc default_world = no_file /\
  exists w' before,
    main example_builtins example_float default_world
      = (inl (SystemExit 1), w') /\
    trace w'
      = (trace default_world ++ before ++ [print no_api_key_message])%list /\
    count is_print before = 0 /\
    count is_api_key_set before = 0 /\
    count is_ChatSession_init before = 0 /\
    count is_ChatSession_loop before = 0.
Proof.
  split; [reflexivity|].
  apply (main_missing_credential example_builtins example_float
           example_builtins_dev example_builtins_general
           default_world GptCliConfig_default default_args);
    [reflexivity | vm_compute; reflexivity | reflexivity | left; reflexivity].
Defined.

Lemma failure_reporter_contract_witness :
  call_excepthook yaml_error (installed malformed_world)
    = (inr tt,
       record_events
         (failure_report (platform_hook "sys.__excepthook__") yaml_error)
         (installed malformed_world)).
Proof.
  apply (failure_reporter_contract
           (main example_builtins example_float) malformed_world
           (installed malformed_world) yaml_error);
    reflexivity.
Defined.



Lemma parse_args_overrides_unset_by_default_witness :
  parse_args example_float (logged_gptrc (Some "sk-test")) logged_world
    = (inr logged_args, logged_world) /\
  Namespace.model logged_args = None /\
  Namespace.temperature logged_args = None /\
  Namespace.top_p logged_args = None.
Proof.
  assert (H : parse_args example_float (logged_gptrc (Some "sk-test"))
                logged_world = (inr logged_args, logged_world))
    by (vm_compute; reflexivity).
  split; [exact H|].
  destruct (parse_args_overrides_unset_by_default example_float
              logged_world logged_world (logged_gptrc (Some "sk-test"))
              logged_args H) as (Hm & Ht & Hp).
  split; [apply Hm; reflexivity|].
  split; [apply Ht; reflexivity | apply Hp; reflexivity].
Defined.


(** * Further properties *)

(** ** The whole process, run *)

Lemma load_config_result (w : world) :
  load_config w =
    (match gptrc w with
     | readable cfg => inr cfg
     | malformed e => inl (Raised e)
     | no_file => inr GptCliConfig_default
     end, w).
Proof.
  unfold load_config, bind, get, ret, raise. by destruct (gptrc w).
Qed.

Lemma load_config_installed (w : world) (config : GptCliConfig.t) :
  load_config w = (inr config, w) ->
  load_config (installed w) = (inr config, installed w).
Proof.
  rewrite !load_config_result. simpl. by intros [= ->].
Qed.

Lemma options_accepted_spec (python_float : string -> option float)
    (argv : CommandLine.t) :
  options_accepted python_float argv = true <->
  (forall s, CommandLine.temperature argv = Some s -> is_Some (python_float s)) /\
  (forall s, CommandLine.top_p argv = Some s -> is_Some (python_float s)) /\
  (forall l, CommandLine.log_level argv = Some l -> l ∈ log_level_choices) /\
  CommandLine.unrecognized argv = [].
Proof.
  clear. unfold options_accepted. rewrite !andb_true_iff.
  destruct argv as [name nomd model temp topp lfile llevel extra]; simpl.
  split.
  - intros [[[Ht Hp] Hl] He]. repeat split.
    + intros s [= ->]. by apply bool_decide_eq_true in Ht.
    + intros s [= ->]. by apply bool_decide_eq_true in Hp.
    + intros l [= ->]. by apply bool_decide_eq_true in Hl.
    + by destruct extra.
  - intros (Ht & Hp & Hl & ->). repeat split.
    + destruct temp; [apply bool_decide_eq_true; eauto | done].
    + destruct topp; [apply bool_decide_eq_true; eauto | done].
    + destruct llevel; [apply bool_decide_eq_true; eauto | done].
Qed.

Lemma call_excepthook_installed (e : exc_info) (w : world) :
  sys_excepthook w = exception_handler_hook ->
  call_excepthook e w
    = (inr tt,
       record_events (failure_report (default_exception_handler w) e) w).
Proof.
  intros Hs. unfold call_excepthook, bind, get. rewrite Hs.
  apply exception_handler_run.
Qed.

Section gpt_run.

Variable DEFAULT_ASSISTANTS : gmap string loc.
Variable python_float : string -> option float.

Lemma module_body_installed (w : world) :
  module_body DEFAULT_ASSISTANTS python_float w
    = main DEFAULT_ASSISTANTS python_float (installed w).
Proof. reflexivity. Qed.

Lemma parse_args_installed (w : world) (config : GptCliConfig.t)
    (args : Namespace.t) :
  parse_args python_float config w = (inr args, w) ->
  parse_args python_float config (installed w) = (inr args, installed w).
Proof.
  rewrite !parse_args_closed_form. simpl.
  destruct (_ && _); [|discriminate]. by intros [= <-].
Qed.

Lemma parse_args_installed_rejected (w : world) (config : GptCliConfig.t)
    (a : abort) (w' : world) :
  parse_args python_float config w = (inl a, w') ->
  parse_args python_float config (installed w)
    = (inl (SystemExit 2), record_events [argparse_usage_error] (installed w)).
Proof.
  rewrite !parse_args_closed_form. simpl.
  destruct (_ && _); [discriminate | done].
Qed.

End gpt_run.

Section gpt_extras.

Variable DEFAULT_ASSISTANTS : gmap string loc.
Variable python_float : string -> option float.

(** X2.  The five log-level names bind the command line only.  A level
    outside them is refused when it comes with [--log_level], exit
    status 2; the same level coming from the configuration is not
    checked and is the level of the namespace. *)
Theorem log_level_checked_on_command_line_only
    (config : GptCliConfig.t) (w : world) (level : string) :
  level ∉ log_level_choices ->
  (CommandLine.log_level (sys_argv w) = Some level ->
   parse_args python_float config w
     = (inl (SystemExit 2), record_events [argparse_usage_error] w)) /\
  (CommandLine.log_level (sys_argv w) = None ->
   GptCliConfig.log_level config = level ->
   command_line_accepted python_float config (sys_argv w) = true ->
   exists args,
     parse_args python_float config w = (inr args, w) /\
     Namespace.log_level args = level).
Proof.
  intros Hout. rewrite parse_args_closed_form. split.
  - intros Hcli.
    assert (Ho : options_accepted python_float (sys_argv w) = false).
    { destruct (options_accepted python_float (sys_argv w)) eqn:Ho; [|done].
      apply options_accepted_spec in Ho as (_ & _ & Hl & _).
      destruct Hout. by apply Hl. }
    rewrite Ho. by rewrite andb_false_r.
  - intros Hcli Hcfg Hacc. unfold command_line_accepted in Hacc.
    rewrite Hacc. eexists. split; [reflexivity|].
    unfold resolved_args; simpl. by rewrite Hcli.
Qed.

(** X3.  When the built-in registry defines ["dev"] and ["general"] and
    nothing else, the choices offered by [parse_args] and the keys of
    the lookup table of [init_assistant] are the same names. *)
Theorem choices_are_the_lookup_table_keys
    (config : GptCliConfig.t) (name : string) :
  dom DEFAULT_ASSISTANTS = {[ "dev"; "general" ]} ->
  name ∈ assistant_name_choices config <->
  is_Some (dict_unpack DEFAULT_ASSISTANTS (GptCliConfig.assistants config)
             !! name).
Proof.
  intros Hdom. rewrite choices_known, dict_unpack_lookup.
  unfold known_assistant.
  assert (Hb : is_Some (DEFAULT_ASSISTANTS !! name)
               <-> name = "dev" \/ name = "general").
  { rewrite <- elem_of_dom, Hdom, elem_of_union, !elem_of_singleton.
    reflexivity. }
  destruct (GptCliConfig.assistants config !! name) as [l|] eqn:Hc.
  - split; [eauto | intros _; right; right; eauto].
  - rewrite Hb. split.
    + intros [? | [? | [? ?]]]; [by left | by right | done].
    + intros [? | ?]; [by left | by right; left].
Qed.



(** X5.  From the tokens to the Assistant.  The Assistant that
    [init_assistant] builds from the namespace of an accepted command
    line is on the entry of the positional name or, without a
    positional, of the configuration's default assistant; afterwards
    the model of that entry is the [--model] token if there is one, its
    temperature and [top_p] are the floats the [--temperature] and
    [--top_p] tokens convert to if there are such tokens, and every
    field without a token is as before. *)
Theorem command_line_resolves_assistant
    (w : world) (config : GptCliConfig.t) (args : Namespace.t)
    (l : loc) (base : AssistantConfig.t) :
  parse_args python_float config w = (inr args, w) ->
  let argv := sys_argv w in
  let name :=
    match CommandLine.assistant_name argv with
    | Some n => n
    | None => GptCliConfig.default_assistant config
    end in
  dict_unpack DEFAULT_ASSISTANTS (GptCliConfig.assistants config) !! name
    = Some l ->
  heap w !! l = Some base ->
  let run :=
    init_assistant DEFAULT_ASSISTANTS args (GptCliConfig.assistants config) w in
  run.1 = inr (Assistant.mk l) /\
  heap run.2 !! l =
    Some (AssistantConfig.mk
            (match CommandLine.model argv with
             | Some m => m
             | None => AssistantConfig.model base
             end)
            (match CommandLine.temperature argv with
             | Some s => python_float s
             | None => AssistantConfig.temperature base
             end)
            (match CommandLine.top_p argv with
             | Some s => python_float s
             | None => AssistantConfig.top_p base
             end)
            (AssistantConfig.messages base)).
Proof.
  intros Hparse. simpl. intros Hl Hbase.
  destruct (parse_args_inr _ _ _ _ _ Hparse) as (_ & Hargs & _ & Hopt).
  apply options_accepted_spec in Hopt as (Ht & Hp & _ & _).
  assert (Hname : Namespace.assistant_name args =
                  match CommandLine.assistant_name (sys_argv w) with
                  | Some n => n
                  | None => GptCliConfig.default_assistant config
                  end).
  { rewrite Hargs. simpl. unfold resolved_name.
    by destruct (CommandLine.assistant_name (sys_argv w)). }
  rewrite <- Hname in Hl.
  rewrite (init_assistant_found _ _ _ _ _ Hl). simpl.
  split; [reflexivity|].
  rewrite lookup_alter_eq, Hbase. simpl.
  rewrite apply_overrides_fields, Hargs. simpl. f_equal.
  destruct (CommandLine.model (sys_argv w)) as [m|],
    (CommandLine.temperature (sys_argv w)) as [t|],
    (CommandLine.top_p (sys_argv w)) as [p|]; simpl;
    try (destruct (Ht t eq_refl) as [x ->]);
    try (destruct (Hp p eq_refl) as [y ->]); reflexivity.
Qed.

(** X6.  The log file and the log level of the command line win over
    those of the configuration.  For an accepted command line, [main]
    calls [logging.basicConfig] with the [--log_file] token, or without
    one with the log file of the configuration, and does not call it
    when there is neither; the level it hands over is the [--log_level]
    token, or without one the level of the configuration. *)
Theorem logging_setup_precedence
    (w : world) (config : GptCliConfig.t) (args : Namespace.t) :
  load_config w = (inr config, w) ->
  parse_args python_float config w = (inr args, w) ->
  let argv := sys_argv w in
  let file :=
    match CommandLine.log_file argv with
    | Some f => Some f
    | None => GptCliConfig.log_file config
    end in
  let level :=
    match CommandLine.log_level argv with
    | Some lv => lv
    | None => GptCliConfig.log_level config
    end in
  List.filter is_basicConfig
    (drop (length (trace w))
       (trace (main DEFAULT_ASSISTANTS python_float w).2))
    = match file with
      | Some f => [logging_basicConfig f level log_format]
      | None => []
      end.
Proof.
  intros Hload Hparse. simpl.
  destruct (parse_args_inr _ _ _ _ _ Hparse) as (_ & Hargs & _ & _).
  assert (Hfile : Namespace.log_file args =
                  match CommandLine.log_file (sys_argv w) with
                  | Some f => Some f
                  | None => GptCliConfig.log_file config
                  end) by (by rewrite Hargs).
  assert (Hlevel : Namespace.log_level args =
                   match CommandLine.log_level (sys_argv w) with
                   | Some lv => lv
                   | None => GptCliConfig.log_level config
                   end).
  { rewrite Hargs. simpl. by destruct (CommandLine.log_level (sys_argv w)). }
  rewrite <- Hfile, <- Hlevel.
  destruct (logging_setup_failure (environment w) args) as [e|] eqn:He.
  { rewrite (main_logging_failed _ _ _ _ _ _ Hload Hparse He). simpl.
    rewrite drop_app_length. unfold logging_setup_failure in He.
    destruct (Namespace.log_file args); [reflexivity | discriminate]. }
  destruct (dict_unpack DEFAULT_ASSISTANTS (GptCliConfig.assistants config)
              !! Namespace.assistant_name args) as [l|] eqn:Hl.
  - rewrite (main_run _ _ _ _ _ _ Hload Hparse He Hl). simpl.
    rewrite drop_app_length.
    unfold logging_setup_events, credential_events, session_events.
    destruct (Namespace.log_file args),
      (truthy (GptCliConfig.api_key config)); simpl;
      try (destruct (Environment.ChatSession_fails (environment w)
                       (Assistant.mk l) (Namespace.markdown args)); simpl);
      reflexivity.
  - rewrite (main_key_error _ _ _ _ _ Hload Hparse He Hl). simpl.
    rewrite drop_app_length. unfold logging_setup_events.
    destruct (Namespace.log_file args); reflexivity.
Qed.

(** X7.  A [~/.gptrc] that cannot be read ends the run before the
    command line is looked at: whatever the arguments, [main] raises
    the loader's exception without any other effect, and the process
    ends with exit status 1 after the failure report, never with the
    usage error of a bad command line. *)
Theorem malformed_config_precedes_command_line (w : world) (e : exc_info) :
  gptrc w = malformed e ->
  main DEFAULT_ASSISTANTS python_float w = (inl (Raised e), w) /\
  python_run (module_body DEFAULT_ASSISTANTS python_float) w
    = (1%Z, record_events (failure_report (sys_excepthook w) e) (installed w)).
Proof.
  intros Hf.
  assert (Hmain : forall w0, gptrc w0 = malformed e ->
            main DEFAULT_ASSISTANTS python_float w0 = (inl (Raised e), w0)).
  { intros w0 H0. apply (main_load_failed _ _ _ _ w0).
    by rewrite load_config_result, H0. }
  split; [by apply Hmain|].
  unfold python_run. rewrite module_body_installed.
  rewrite (Hmain (installed w)) by done.
  by rewrite call_excepthook_installed.
Qed.

(** X8.  Should the built-in registry not define a name that
    [parse_args] accepts, the run, when the set-up of logging goes
    through, reaches the lookup of line 27, which raises [KeyError]: no
    Assistant is constructed, no configuration object is touched,
    nothing is said about the API key, and the process ends with exit
    status 1 after the failure report. *)
Theorem missing_registry_entry_is_reported
    (w : world) (config : GptCliConfig.t) (args : Namespace.t) :
  load_config w = (inr config, w) ->
  parse_args python_float config w = (inr args, w) ->
  logging_setup_failure (environment w) args = None ->
  dict_unpack DEFAULT_ASSISTANTS (GptCliConfig.assistants config)
    !! Namespace.assistant_name args = None ->
  let e := KeyError (Namespace.assistant_name args) ["main"; "init_assistant"] in
  python_run (module_body DEFAULT_ASSISTANTS python_float) w
    = (1%Z,
       record_events
         (logging_setup_events args ++ failure_report (sys_excepthook w) e)
         (installed w)).
Proof.
  intros Hload Hparse Hlog Hl. simpl.
  unfold python_run. rewrite module_body_installed.
  rewrite (main_key_error _ _ _ _ _ (load_config_installed _ _ Hload)
             (parse_args_installed _ _ _ _ Hparse) Hlog Hl).
  rewrite call_excepthook_installed by done.
  unfold record_events; simpl. by rewrite <- app_assoc.
Qed.

End gpt_extras.

Section gpt_extras_process.

Variable DEFAULT_ASSISTANTS : gmap string loc.
Variable python_float : string -> option float.

(** X9.  Whatever the outcome of the module body, it leaves
    [sys.excepthook] at [exception_handler] and the saved hook at what
    [sys.excepthook] held before: [main] assigns to neither. *)
Theorem module_body_keeps_the_hooks (w : world) :
  let body := module_body DEFAULT_ASSISTANTS python_float in
  sys_excepthook (body w).2 = exception_handler_hook /\
  default_exception_handler (body w).2 = sys_excepthook w.
Proof.
  simpl.
  pose proof (module_body_hooks DEFAULT_ASSISTANTS python_float w) as Hh.
  unfold hooks in Hh. injection Hh as Hs Hd. by split.
Qed.

Hypothesis builtin_dev : is_Some (DEFAULT_ASSISTANTS !! "dev").
Hypothesis builtin_general : is_Some (DEFAULT_ASSISTANTS !! "general").

(** X11.  The session is told what the command line and the
    configuration say about markdown: for an accepted command line, a
    set-up of logging that goes through and a usable credential, [main]
    constructs its one session with markdown on exactly when
    [--no_markdown] is absent and the configuration has markdown on,
    and, the constructor having returned, enters the loop of that
    session as its last call. *)
Theorem session_gets_the_markdown_flag
    (w : world) (config : GptCliConfig.t) (args : Namespace.t) :
  load_config w = (inr config, w) ->
  parse_args python_float config w = (inr args, w) ->
  logging_setup_failure (environment w) args = None ->
  truthy (GptCliConfig.api_key config) = true ->
  let flag :=
    negb (CommandLine.no_markdown (sys_argv w))
    && GptCliConfig.markdown config in
  let new :=
    drop (length (trace w))
      (trace (main DEFAULT_ASSISTANTS python_float w).2) in
  exists assistant,
    List.filter is_ChatSession_init new = [ChatSession_init assistant flag] /\
    (Environment.ChatSession_fails (environment w) assistant flag = None ->
     last new = Some (ChatSession_loop (ChatSession.mk assistant flag))).
Proof.
  intros Hload Hparse Hlog Hkey. simpl.
  destruct (accepted_name_found _ _ builtin_dev builtin_general _ _ _ Hparse)
    as [l Hl].
  destruct (parse_args_inr _ _ _ _ _ Hparse) as (_ & Hargs & _ & _).
  assert (Hflag : Namespace.markdown args =
                  negb (CommandLine.no_markdown (sys_argv w))
                  && GptCliConfig.markdown config).
  { rewrite Hargs. simpl. by destruct (CommandLine.no_markdown (sys_argv w)). }
  rewrite (main_run _ _ _ _ _ _ Hload Hparse Hlog Hl). simpl.
  rewrite drop_app_length.
  unfold credential_events, logging_setup_events, session_events.
  rewrite Hkey, Hflag. exists (Assistant.mk l).
  destruct (Environment.ChatSession_fails (environment w) _ _) eqn:Hnew;
    destruct (Namespace.log_file args); split;
    solve [reflexivity | discriminate | intros _; reflexivity].
Qed.

(** X12.  The Assistant is built before the credential is looked at.  For
    an accepted command line, a set-up of logging that goes through and
    a configuration without a usable credential, the run that ends with
    exit status 1 has all the same applied the overrides to the selected
    configuration object, constructed the Assistant and logged the
    start of a chat session; the instruction about the API key comes
    last. *)
Theorem assistant_is_built_before_the_credential_check
    (w : world) (config : GptCliConfig.t) (args : Namespace.t) :
  load_config w = (inr config, w) ->
  parse_args python_float config w = (inr args, w) ->
  logging_setup_failure (environment w) args = None ->
  truthy (GptCliConfig.api_key config) = false ->
  let w' := (main DEFAULT_ASSISTANTS python_float w).2 in
  exists l,
    dict_unpack DEFAULT_ASSISTANTS (GptCliConfig.assistants config)
      !! Namespace.assistant_name args = Some l /\
    heap w' = alter (apply_overrides args) l (heap w) /\
    List.filter (fun e => negb (is_logging_setup e))
      (drop (length (trace w)) (trace w'))
      = [Assistant_init l; starting_record l; print no_api_key_message].
Proof.
  intros Hload Hparse Hlog Hkey. simpl.
  destruct (accepted_name_found _ _ builtin_dev builtin_general _ _ _ Hparse)
    as [l Hl].
  exists l. split; [exact Hl|].
  rewrite (main_run _ _ _ _ _ _ Hload Hparse Hlog Hl). simpl.
  split; [reflexivity|].
  rewrite drop_app_length. unfold credential_events, logging_setup_events.
  rewrite Hkey. destruct (Namespace.log_file args); reflexivity.
Qed.

(** X13.  The return code of the process for an accepted command line.
    When the set-up of logging raises, the exception is reported through
    the hook and the exit status is 1.  When it goes through: without a
    usable credential the exit status is 1 and the hook is not called;
    with one, the session having been constructed, the exit status is 0
    when its loop returns, and when the loop is left by
    [KeyboardInterrupt] the process is ended by [SIGINT]. *)
Theorem return_code_of_an_accepted_command_line
    (w : world) (config : GptCliConfig.t) (args : Namespace.t) :
  load_config w = (inr config, w) ->
  parse_args python_float config w = (inr args, w) ->
  let run := python_run (module_body DEFAULT_ASSISTANTS python_float) w in
  let hook_calls :=
    count is_hook_call (drop (length (trace w)) (trace run.2)) in
  let env := environment w in
  (forall e,
     logging_setup_failure env args = Some e ->
     run.1 = 1%Z /\ hook_calls = 1) /\
  (logging_setup_failure env args = None ->
   truthy (GptCliConfig.api_key config) = false ->
   run.1 = 1%Z /\ hook_calls = 0) /\
  (logging_setup_failure env args = None ->
   truthy (GptCliConfig.api_key config) = true ->
   forall assistant,
     (init_assistant DEFAULT_ASSISTANTS args
        (GptCliConfig.assistants config) w).1 = inr assistant ->
     Environment.ChatSession_fails env assistant (Namespace.markdown args)
       = None ->
     let session := ChatSession.mk assistant (Namespace.markdown args) in
     (Environment.loop_ends env session = None ->
      run.1 = 0%Z /\ hook_calls = 0) /\
     (forall traceback,
        Environment.loop_ends env session
          = Some (KeyboardInterrupt traceback) ->
        run.1 = (- SIGINT)%Z /\ hook_calls = 1)).
Proof.
  intros Hload Hparse. simpl.
  pose proof (load_config_installed _ _ Hload) as Hload'.
  pose proof (parse_args_installed _ _ _ _ Hparse) as Hparse'.
  unfold python_run. rewrite module_body_installed.
  destruct (accepted_name_found _ _ builtin_dev builtin_general _ _ _ Hparse)
    as [l Hl].
  split; [|split].
  - intros e He.
    rewrite (main_logging_failed _ _ (installed w) _ _ _ Hload' Hparse' He).
    rewrite call_excepthook_installed by done. simpl.
    rewrite <- app_assoc, drop_app_length.
    unfold logging_setup_failure in He.
    destruct (Namespace.log_file args); [done | discriminate].
  - intros He Hkey.
    rewrite (main_run _ _ (installed w) _ _ _ Hload' Hparse' He Hl).
    unfold credential_outcome, credential_events, logging_setup_events.
    rewrite Hkey. simpl. rewrite drop_app_length.
    destruct (Namespace.log_file args); done.
  - intros He Hkey assistant Ha Hnew. revert Ha Hnew.
    rewrite (init_assistant_found _ _ _ _ _ Hl). simpl.
    intros [= <-] Hnew.
    rewrite (main_run _ _ (installed w) _ _ _ Hload' Hparse' He Hl).
    unfold credential_outcome, credential_events, session_outcome,
      session_events, logging_setup_events.
    rewrite Hkey. simpl. rewrite Hnew. split.
    + intros ->. simpl. rewrite drop_app_length.
      destruct (Namespace.log_file args); done.
    + intros traceback ->. simpl.
      rewrite <- !app_assoc, drop_app_length.
      destruct (Namespace.log_file args); done.
Qed.

End gpt_extras_process.

(** ** The further properties at concrete process states *)

Lemma log_level_checked_on_command_line_only_witness :
  ("VERBOSE" ∉ log_level_choices) /\
  parse_args example_float GptCliConfig_default verbose_cli_world
    = (inl (SystemExit 2),
       record_events [argparse_usage_error] verbose_cli_world) /\
  exists args,
    parse_args example_float verbose_gptrc verbose_config_world
      = (inr args, verbose_config_world) /\
    Namespace.log_level args = "VERBOSE".
Proof.
  assert (Hout : "VERBOSE" ∉ log_level_choices).
  { intros Hin. apply list_elem_of_In in Hin. simpl in Hin.
    destruct Hin as [? | [? | [? | [? | [? | []]]]]]; discriminate. }
  split; [exact Hout|]. split.
  - apply (log_level_checked_on_command_line_only example_float
             GptCliConfig_default verbose_cli_world "VERBOSE" Hout).
    reflexivity.
  - apply (log_level_checked_on_command_line_only example_float
             verbose_gptrc verbose_config_world "VERBOSE" Hout);
      [reflexivity | reflexivity | vm_compute; reflexivity].
Defined.

Lemma example_builtins_dom : dom example_builtins = {[ "dev"; "general" ]}.
Proof.
  unfold example_builtins. rewrite dom_insert_L, dom_singleton_L. set_solver.
Defined.

Lemma choices_are_the_lookup_table_keys_witness :
  ("writer" ∈ assistant_name_choices writer_gptrc) /\
  is_Some (dict_unpack example_builtins (GptCliConfig.assistants writer_gptrc)
             !! "writer").
Proof.
  assert (H : is_Some (dict_unpack example_builtins
                         (GptCliConfig.assistants writer_gptrc) !! "writer"))
    by (exists 3%positive; vm_compute; reflexivity).
  split; [|exact H].
  apply (choices_are_the_lookup_table_keys example_builtins writer_gptrc
           "writer" example_builtins_dom). exact H.
Defined.


Lemma command_line_resolves_assistant_witness :
  (init_assistant example_builtins writer_args
     (GptCliConfig.assistants writer_gptrc) writer_world).1
    = inr (Assistant.mk 3) /\
  heap (init_assistant example_builtins writer_args
          (GptCliConfig.assistants writer_gptrc) writer_world).2
    !! 3%positive
    = Some (AssistantConfig.mk "m1" (Some float_0_9) None []).
Proof.
  apply (command_line_resolves_assistant example_builtins example_float
           writer_world writer_gptrc writer_args 3%positive writer_config);
    vm_compute; reflexivity.
Defined.

Lemma logging_setup_precedence_witness :
  List.filter is_basicConfig
    (drop (length (trace cli_logging_world))
       (trace (main example_builtins example_float cli_logging_world).2))
    = [logging_basicConfig "/tmp/cli.log" "WARNING" log_format].
Proof.
  apply (logging_setup_precedence example_builtins example_float
           cli_logging_world (logged_gptrc (Some "sk-test")) cli_logging_args);
    [reflexivity | vm_compute; reflexivity].
Defined.

Lemma malformed_config_precedes_command_line_witness :
  main example_builtins example_float bogus_malformed_world
    = (inl (Raised yaml_error), bogus_malformed_world) /\
  python_run (module_body example_builtins example_float)
    bogus_malformed_world
    = (1%Z,
       record_events
         (failure_report (platform_hook "sys.__excepthook__") yaml_error)
         (installed bogus_malformed_world)).
Proof.
  apply (malformed_config_precedes_command_line example_builtins
           example_float bogus_malformed_world yaml_error).
  reflexivity.
Defined.

Lemma missing_registry_entry_is_reported_witness :
  python_run (module_body empty_builtins example_float) cli_logging_world
    = (1%Z,
       record_events
         ([logging_basicConfig "/tmp/cli.log" "WARNING" log_format;
           logging_setLevel "markdown_it" logging_INFO] ++
          failure_report (platform_hook "sys.__excepthook__")
            (KeyError "dev" ["main"; "init_assistant"]))
         (installed cli_logging_world)).
Proof.
  apply (missing_registry_entry_is_reported empty_builtins example_float
           cli_logging_world (logged_gptrc (Some "sk-test")) cli_logging_args);
    [reflexivity | vm_compute; reflexivity | vm_compute; reflexivity
    | vm_compute; reflexivity].
Defined.

Lemma session_gets_the_markdown_flag_witness :
  exists assistant,
    List.filter is_ChatSession_init
      (drop (length (trace cli_logging_world))
         (trace (main example_builtins example_float cli_logging_world).2))
      = [ChatSession_init assistant false] /\
    last
      (drop (length (trace cli_logging_world))
         (trace (main example_builtins example_float cli_logging_world).2))
      = Some (ChatSession_loop (ChatSession.mk assistant false)).
Proof.
  destruct (session_gets_the_markdown_flag example_builtins example_float
              example_builtins_dev example_builtins_general
              cli_logging_world (logged_gptrc (Some "sk-test"))
              cli_logging_args)
    as (assistant & Hinit & Hloop);
    [reflexivity | vm_compute; reflexivity | vm_compute; reflexivity
    | reflexivity |].
  exists assistant. split; [exact Hinit|]. apply Hloop. reflexivity.
Defined.

Lemma assistant_is_built_before_the_credential_check_witness :
  exists l,
    dict_unpack example_builtins ∅ !! "dev" = Some l /\
    heap (main example_builtins example_float empty_key_world).2
      = alter (apply_overrides logged_args) l (heap empty_key_world) /\
    List.filter (fun e => negb (is_logging_setup e))
      (drop (length (trace empty_key_world))
         (trace (main example_builtins example_float empty_key_world).2))
      = [Assistant_init l; starting_record l; print no_api_key_message].
Proof.
  apply (assistant_is_built_before_the_credential_check example_builtins
           example_float example_builtins_dev example_builtins_general
           empty_key_world (logged_gptrc (Some "")) logged_args);
    [reflexivity | vm_compute; reflexivity | vm_compute; reflexivity
    | reflexivity].
Defined.

Lemma return_code_of_an_accepted_command_line_witness :
  (python_run (module_body example_builtins example_float) writer_world).1
    = 0%Z /\
  (python_run (module_body example_builtins example_float)
     interrupted_world).1 = (-2)%Z /\
  (python_run (module_body example_builtins example_float) default_world).1
    = 1%Z /\
  (python_run (module_body example_builtins example_float)
     verbose_config_world).1 = 1%Z.
Proof.
  destruct (return_code_of_an_accepted_command_line example_builtins
              example_float example_builtins_dev example_builtins_general
              writer_world writer_gptrc writer_args)
    as (_ & _ & Hw); [reflexivity | vm_compute; reflexivity |].
  destruct (return_code_of_an_accepted_command_line example_builtins
              example_float example_builtins_dev example_builtins_general
              interrupted_world writer_gptrc writer_args)
    as (_ & _ & Hi); [reflexivity | vm_compute; reflexivity |].
  destruct (return_code_of_an_accepted_command_line example_builtins
              example_float example_builtins_dev example_builtins_general
              default_world GptCliConfig_default default_args)
    as (_ & Hd & _); [reflexivity | vm_compute; reflexivity |].
  destruct (return_code_of_an_accepted_command_line example_builtins
              example_float example_builtins_dev example_builtins_general
              verbose_config_world verbose_gptrc verbose_args)
    as (Hv & _); [reflexivity | vm_compute; reflexivity |].
  split.
  { destruct (Hw eq_refl eq_refl (Assistant.mk 3)) as [H0 _];
      [vm_compute; reflexivity | reflexivity |].
    exact (proj1 (H0 eq_refl)). }
  split.
  { destruct (Hi eq_refl eq_refl (Assistant.mk 3)) as [_ Hk];
      [vm_compute; reflexivity | reflexivity |].
    exact (proj1 (Hk ["main"; "loop"] eq_refl)). }
  split.
  { exact (proj1 (Hd eq_refl eq_refl)). }
  destruct (Hv (ValueError "Unknown level: 'VERBOSE'"
                  ["main"; "basicConfig"; "setLevel"; "_checkLevel"]))
    as [H1 _]; [vm_compute; reflexivity | exact H1].
Defined.
